(** * ENT clinic booking page: appointment store and mock sign-in gate

    A shallow embedding of the stateful core of [src/App.tsx]:
    the [App] component's appointment handlers ([saveAppointments],
    [addAppointment], [markDone], the loading effect), the sign-in handler
    of [AuthModal] and the counters of [DoctorDashboard].

    Conventions of the embedding.
    - A JavaScript string is a [string]: a sequence of code units, here
      restricted to the code units 0..255 that [ascii] can hold.
    - [Date.now()] is an integral number of milliseconds, a [Z].
    - React state (the [useState] cells) and [localStorage] are threaded
      explicitly: a handler is a function from the browser state to a result
      and a new browser state. Each handler runs against the state of the
      latest render, as an event handler does.
    - [Math.random()] and [Date.now()] are read from an [Ambient] record that
      holds what the two calls evaluate to during one handler run. *)

From Stdlib Require Import ZArith DecimalString DecimalZ Ascii.
From stdpp Require Import gmap strings list.

Open Scope Z_scope.

#[local] Arguments String.append !s1 s2 : simpl nomatch.

(** ** Part I: the embedding *)

(** *** Strings *)

Module Str.

(** [s.substr(start, len)] for non-negative arguments: the (at most) [len]
    code units of [s] from position [start] on; empty when [start] is at or
    past the end. *)
Definition substr (start len : nat) (s : string) : string :=
  String.substring start len s.

(** A string is truthy when it is not empty. *)
Definition truthy (s : string) : bool :=
  match s with EmptyString => false | String _ _ => true end.

(** Longest prefix whose code units satisfy [p], and the rest. *)
Fixpoint span (p : ascii → bool) (s : string) : string * string :=
  match s with
  | EmptyString => ("", "")
  | String c s' =>
      if p c then let '(pre, rest) := span p s' in (String c pre, rest)
      else ("", s)
  end.

Fixpoint forallb (p : ascii → bool) (s : string) : bool :=
  match s with
  | EmptyString => true
  | String c s' => p c && forallb p s'
  end.

(** [expect lit s] strips the literal [lit] from the front of [s]. *)
Fixpoint expect (lit s : string) : option string :=
  match lit, s with
  | EmptyString, _ => Some s
  | String a lit', String b s' =>
      if Ascii.eqb a b then expect lit' s' else None
  | String _ _, EmptyString => None
  end.

End Str.

(** *** Data model *)

Inductive AuthMode := none | patient | doctor.

Inductive Status := pending | done.

(** The argument of [addAppointment]:
    [Omit<Appointment, 'id' | 'status' | 'createdAt'>], built by the booking
    form with its keys in this order. *)
Module Draft.
Record t := mk {
  patientName : string;
  email : string;
  phone : string;
  service : string;
  date : string
}.
End Draft.

Record Appointment := mkAppointment {
  id : string;
  patientName : string;
  email : string;
  phone : string;
  service : string;
  date : string;
  status : Status;
  createdAt : Z
}.

#[global] Instance AuthMode_eq_dec : EqDecision AuthMode.
Proof. solve_decision. Defined.

#[global] Instance Status_eq_dec : EqDecision Status.
Proof. solve_decision. Defined.

#[global] Instance Appointment_eq_dec : EqDecision Appointment.
Proof. solve_decision. Defined.

(** *** The snapshot text: [JSON.stringify] and [JSON.parse]

    The two platform functions, at the one type the application uses them
    at, [Appointment[]]. [stringify] writes what the platform writes for such
    an array: no white space, the keys of each object in creation order (the
    draft's keys, then [id], [status], [createdAt]), strings quoted with the
    JSON escapes, the time stamp as a decimal integer. [parse] reads back the
    documents of that shape and is [None] on every other text, which stands
    both for a text the platform rejects (the call throws) and for a valid
    document that is not an [Appointment[]] in this layout. *)

Module JSON.

Definition dquote : ascii := "034"%char.
Definition backslash : ascii := "092"%char.

Definition hex_digit (n : N) : ascii :=
  match n with
  | 0 => "0" | 1 => "1" | 2 => "2" | 3 => "3" | 4 => "4" | 5 => "5"
  | 6 => "6" | 7 => "7" | 8 => "8" | 9 => "9" | 10 => "a" | 11 => "b"
  | 12 => "c" | 13 => "d" | 14 => "e" | _ => "f"
  end%N%char.

Definition is_control (c : ascii) : bool := (N_of_ascii c <? 32)%N.

(** One code unit inside a quoted string: the two-character escapes for
    the quote, the backslash, backspace, form feed, line feed, carriage return
    and tab; [\u00xx] with lower-case digits for the other code units below
    32; the code unit itself otherwise. *)
Definition quote_char (c : ascii) : string :=
  if Ascii.eqb c dquote then String backslash (String dquote "")
  else if Ascii.eqb c backslash then String backslash (String backslash "")
  else if Ascii.eqb c "008" then String backslash "b"
  else if Ascii.eqb c "012" then String backslash "f"
  else if Ascii.eqb c "010" then String backslash "n"
  else if Ascii.eqb c "013" then String backslash "r"
  else if Ascii.eqb c "009" then String backslash "t"
  else if is_control c then
    String backslash
      (String "u" (String "0" (String "0"
        (String (hex_digit (N_of_ascii c / 16))
          (String (hex_digit (N_of_ascii c mod 16)) "")))))
  else String c "".

Fixpoint quote_body (s : string) : string :=
  match s with
  | EmptyString => ""
  | String c s' => quote_char c +:+ quote_body s'
  end.

Definition quote (s : string) : string :=
  String dquote (quote_body s +:+ String dquote "").

Definition unescape (e : ascii) : option ascii :=
  if Ascii.eqb e dquote then Some dquote
  else if Ascii.eqb e backslash then Some backslash
  else if Ascii.eqb e "/" then Some "/"%char
  else if Ascii.eqb e "b" then Some "008"%char
  else if Ascii.eqb e "f" then Some "012"%char
  else if Ascii.eqb e "n" then Some "010"%char
  else if Ascii.eqb e "r" then Some "013"%char
  else if Ascii.eqb e "t" then Some "009"%char
  else None.

Definition hex_value (c : ascii) : option N :=
  let n := N_of_ascii c in
  if (48 <=? n)%N && (n <=? 57)%N then Some (n - 48)%N
  else if (97 <=? n)%N && (n <=? 102)%N then Some (n - 87)%N
  else if (65 <=? n)%N && (n <=? 70)%N then Some (n - 55)%N
  else None.

(** The code unit written [\uh1h2h3h4], when it is one of the code units
    0..255 of this embedding. *)
Definition code_unit (h1 h2 h3 h4 : ascii) : option ascii :=
  match hex_value h1, hex_value h2, hex_value h3, hex_value h4 with
  | Some a, Some b, Some c, Some d =>
      let n := (((a * 16 + b) * 16 + c) * 16 + d)%N in
      if (n <? 256)%N then Some (ascii_of_N n) else None
  | _, _, _, _ => None
  end.

(** The characters of a string literal after its opening quote, up to and
    including the closing quote. *)
Fixpoint read_chars (s : string) : option (string * string) :=
  match s with
  | EmptyString => None
  | String c rest =>
      if Ascii.eqb c dquote then Some ("", rest)
      else if Ascii.eqb c backslash then
        match rest with
        | EmptyString => None
        | String e rest1 =>
            if Ascii.eqb e "u" then
              match rest1 with
              | String h1 (String h2 (String h3 (String h4 rest2))) =>
                  match code_unit h1 h2 h3 h4, read_chars rest2 with
                  | Some u, Some (v, rest3) => Some (String u v, rest3)
                  | _, _ => None
                  end
              | _ => None
              end
            else
              match unescape e, read_chars rest1 with
              | Some u, Some (v, rest3) => Some (String u v, rest3)
              | _, _ => None
              end
        end
      else if is_control c then None
      else
        match read_chars rest with
        | Some (v, rest3) => Some (String c v, rest3)
        | None => None
        end
  end.

Definition read_string (s : string) : option (string * string) :=
  match s with
  | String c rest => if Ascii.eqb c dquote then read_chars rest else None
  | EmptyString => None
  end.

(** An integral number is written in decimal, with a minus sign when
    negative. *)
Definition write_number (z : Z) : string :=
  NilEmpty.string_of_int (Z.to_int z).

Definition is_number_char (c : ascii) : bool :=
  Ascii.eqb c "-" || ((48 <=? N_of_ascii c)%N && (N_of_ascii c <=? 57)%N).

(** An integer literal; accepted only in the form [write_number] gives,
    which excludes an empty literal, a lone sign and leading zeros. *)
Definition read_number (s : string) : option (Z * string) :=
  let '(lit, rest) := Str.span is_number_char s in
  match NilEmpty.int_of_string lit with
  | Some d =>
      let z := Z.of_int d in
      if String.eqb (write_number z) lit then Some (z, rest) else None
  | None => None
  end.

Definition write_status (st : Status) : string :=
  quote (match st with pending => "pending" | done => "done" end).

Definition read_status (s : string) : option (Status * string) :=
  '(v, rest) ← read_string s;
  if String.eqb v "pending" then Some (pending, rest)
  else if String.eqb v "done" then Some (done, rest)
  else None.

Definition key (name : string) : string := quote name +:+ ":".

Definition write_appointment (a : Appointment) : string :=
  "{" +:+ key "patientName" +:+ quote (patientName a) +:+
  "," +:+ key "email" +:+ quote (email a) +:+
  "," +:+ key "phone" +:+ quote (phone a) +:+
  "," +:+ key "service" +:+ quote (service a) +:+
  "," +:+ key "date" +:+ quote (date a) +:+
  "," +:+ key "id" +:+ quote (id a) +:+
  "," +:+ key "status" +:+ write_status (status a) +:+
  "," +:+ key "createdAt" +:+ write_number (createdAt a) +:+ "}".

Definition read_field (name s : string) : option (string * string) :=
  s ← Str.expect (key name) s; read_string s.

Definition read_appointment (s : string) : option (Appointment * string) :=
  s ← Str.expect "{" s;
  '(vpatientName, s) ← read_field "patientName" s;
  s ← Str.expect "," s;
  '(vemail, s) ← read_field "email" s;
  s ← Str.expect "," s;
  '(vphone, s) ← read_field "phone" s;
  s ← Str.expect "," s;
  '(vservice, s) ← read_field "service" s;
  s ← Str.expect "," s;
  '(vdate, s) ← read_field "date" s;
  s ← Str.expect "," s;
  '(vid, s) ← read_field "id" s;
  s ← Str.expect "," s;
  s ← Str.expect (key "status") s;
  '(vstatus, s) ← read_status s;
  s ← Str.expect "," s;
  s ← Str.expect (key "createdAt") s;
  '(vcreatedAt, s) ← read_number s;
  s ← Str.expect "}" s;
  Some ({| id := vid; patientName := vpatientName; email := vemail;
           phone := vphone; service := vservice; date := vdate;
           status := vstatus; createdAt := vcreatedAt |}, s).

(** [JSON.stringify(apps)]: the elements between brackets, separated by
    commas. *)
Definition stringify (apps : list Appointment) : string :=
  "[" +:+ String.concat "," (write_appointment <$> apps) +:+ "]".

(** The elements of a non-empty array and its closing bracket. Every
    element takes at least one character, so the length of the text is
    enough fuel. *)
Fixpoint read_items (fuel : nat) (s : string)
    : option (list Appointment * string) :=
  match fuel with
  | O => None
  | S fuel' =>
      '(a, s) ← read_appointment s;
      match s with
      | EmptyString => None
      | String c rest =>
          if Ascii.eqb c "]" then Some ([a], rest)
          else if Ascii.eqb c "," then
            '(l, s') ← read_items fuel' rest; Some (a :: l, s')
          else None
      end
  end.

Definition read_array (s : string) : option (list Appointment * string) :=
  s ← Str.expect "[" s;
  match s with
  | String c rest =>
      if Ascii.eqb c "]" then Some ([], rest)
      else read_items (String.length s) s
  | EmptyString => None
  end.

(** [JSON.parse(text)]; [None] when the call throws. *)
Definition parse (text : string) : option (list Appointment) :=
  match read_array text with
  | Some (apps, EmptyString) => Some apps
  | _ => None
  end.

End JSON.

(** *** Browser state and handlers *)

(** The [useState] cells of [App]. *)
Record AppState := mkAppState {
  authMode : AuthMode;
  showAuthModal : bool;
  appointments : list Appointment;
  isMenuOpen : bool
}.

(** The component state together with the page's [localStorage]. *)
Record Browser := mkBrowser {
  state : AppState;
  localStorage : gmap string string
}.

(** What [Math.random().toString(36)] and [Date.now()] evaluate to during
    one run of a handler. The first is the base-36 text of a number in
    [0, 1): ["0"] for zero, otherwise ["0."] followed by one or more base-36
    digits. *)
Record Ambient := mkAmbient {
  Math_random_toString36 : string;
  Date_now : Z
}.

Definition is_base36_digit (c : ascii) : bool :=
  let n := N_of_ascii c in
  ((48 <=? n)%N && (n <=? 57)%N) || ((97 <=? n)%N && (n <=? 122)%N).

Definition random_text_wf (r : string) : bool :=
  match r with
  | String "0" EmptyString => true
  | String "0" (String "." (String d ds)) =>
      is_base36_digit d && Str.forallb is_base36_digit ds
  | _ => false
  end.

Definition Handler (A : Type) : Type := Browser → A * Browser.

Definition seq {A B : Type} (h : Handler A) (k : Handler B) : Handler B :=
  λ b, k (h b).2.

Notation "h ;; k" := (seq h k) (at level 100, k at level 200,
  right associativity).

(** The browser state a handler leaves, and the value it returns. *)
Definition exec {A : Type} (h : Handler A) (b : Browser) : Browser := (h b).2.
Definition returned {A : Type} (h : Handler A) (b : Browser) : A := (h b).1.

Definition setAuthMode (mode : AuthMode) : Handler unit := λ b,
  (tt, {| state := {| authMode := mode;
                      showAuthModal := showAuthModal (state b);
                      appointments := appointments (state b);
                      isMenuOpen := isMenuOpen (state b) |};
          localStorage := localStorage b |}).

Definition setShowAuthModal (show : bool) : Handler unit := λ b,
  (tt, {| state := {| authMode := authMode (state b);
                      showAuthModal := show;
                      appointments := appointments (state b);
                      isMenuOpen := isMenuOpen (state b) |};
          localStorage := localStorage b |}).

Definition setAppointments (apps : list Appointment) : Handler unit := λ b,
  (tt, {| state := {| authMode := authMode (state b);
                      showAuthModal := showAuthModal (state b);
                      appointments := apps;
                      isMenuOpen := isMenuOpen (state b) |};
          localStorage := localStorage b |}).

Definition localStorage_setItem (k v : string) : Handler unit := λ b,
  (tt, {| state := state b; localStorage := <[k := v]> (localStorage b) |}).

Definition localStorage_getItem (k : string) (b : Browser) : option string :=
  localStorage b !! k.

Definition saveAppointments (newApps : list Appointment) : Handler unit :=
  setAppointments newApps ;;
  localStorage_setItem "ent_appointments" (JSON.stringify newApps).

Definition handleLogout : Handler unit :=
  setAuthMode none ;; setShowAuthModal true.

(** The record [addAppointment] builds: the draft's fields, then [id],
    [status] and [createdAt]. *)
Definition newApp (amb : Ambient) (app : Draft.t) : Appointment :=
  {| patientName := Draft.patientName app;
     email := Draft.email app;
     phone := Draft.phone app;
     service := Draft.service app;
     date := Draft.date app;
     id := Str.substr 2 9 (Math_random_toString36 amb);
     status := pending;
     createdAt := Date_now amb |}.

Definition addAppointment (amb : Ambient) (app : Draft.t) : Handler unit :=
  λ b, saveAppointments (appointments (state b) ++ [newApp amb app]) b.

Definition markDone (target : string) : Handler unit := λ b,
  let updated := filter (λ app, id app ≠ target) (appointments (state b)) in
  saveAppointments updated b.

(** The [onAuth] callback [App] hands to [AuthModal]. *)
Definition onAuth (mode : AuthMode) : Handler unit :=
  setAuthMode mode ;; setShowAuthModal false.

Definition App_initial : AppState :=
  {| authMode := none; showAuthModal := true; appointments := [];
     isMenuOpen := false |}.

(** The effect run once after the first render; [None] when [JSON.parse]
    throws. *)
Definition loadEffect (b : Browser) : option Browser :=
  match localStorage_getItem "ent_appointments" b with
  | Some saved =>
      if Str.truthy saved then
        apps ← JSON.parse saved; Some (exec (setAppointments apps) b)
      else Some b
  | None => Some b
  end.

(** Opening the page over the storage [ls]: the initial render followed by
    the loading effect. *)
Definition mount (ls : gmap string string) : option Browser :=
  loadEffect {| state := App_initial; localStorage := ls |}.

Module AuthModal.

Record State := mkState {
  isLogin : bool;
  email : string;
  password : string;
  error : string
}.

Definition initial : State :=
  {| isLogin := true; email := ""; password := ""; error := "" |}.

Definition setError (msg : string) (m : State) : State :=
  {| isLogin := isLogin m; email := email m; password := password m;
     error := msg |}.

Definition invalid_credentials : string :=
  "Please enter valid credentials (min 4 chars password)".

(** The form's submit handler: the modal's new state, and the browser
    state after the [onAuth] callback, when it is called. *)
Definition handleSubmit (onAuth : AuthMode → Handler unit) (m : State)
    : Handler State := λ b,
  let m := setError "" m in
  if String.eqb (email m) "admin" && String.eqb (password m) "1234" then
    (m, exec (onAuth doctor) b)
  else if Str.truthy (email m) && (4 <=? String.length (password m))%nat then
    (m, exec (onAuth patient) b)
  else (setError invalid_credentials m, b).

End AuthModal.

Module DoctorDashboard.

Definition pendingCount (appointments : list Appointment) : nat :=
  length (filter (λ a, status a = pending) appointments).

(** The keys of the table rows, in the order they are rendered. *)
Definition rowKeys (appointments : list Appointment) : list string :=
  (λ app, id app) <$> appointments.

End DoctorDashboard.

(** *** Runs of the store *)

Inductive Op :=
| Add (amb : Ambient) (app : Draft.t)
| Remove (target : string).

Definition step (b : Browser) (op : Op) : Browser :=
  match op with
  | Add amb app => exec (addAppointment amb app) b
  | Remove target => exec (markDone target) b
  end.

Definition run (ops : list Op) (b : Browser) : Browser := foldl step b ops.

Definition ids (b : Browser) : list string := id <$> appointments (state b).

(** Every [Add] of the run draws an id that no record of the collection
    carries at that moment. *)
Fixpoint fresh_draws (b : Browser) (ops : list Op) : bool :=
  match ops with
  | [] => true
  | op :: ops' =>
      match op with
      | Add amb app => bool_decide (id (newApp amb app) ∉ ids b)
      | Remove _ => true
      end && fresh_draws (step b op) ops'
  end.

Definition empty_browser : Browser :=
  {| state := App_initial; localStorage := ∅ |}.

(** *** Sample inputs *)

Definition sample_modal (identifier secret : string) : AuthModal.State :=
  {| AuthModal.isLogin := true; AuthModal.email := identifier;
     AuthModal.password := secret; AuthModal.error := "stale message" |}.

Definition jane : Draft.t :=
  {| Draft.patientName := "Jane Doe"; Draft.email := "jane@x.com";
     Draft.phone := "555"; Draft.service := "Audiology";
     Draft.date := "2026-01-10" |}.

Definition amb_first : Ambient :=
  {| Math_random_toString36 := "0.4fzyo82mvyr"; Date_now := 1767225600000 |}.

Definition amb_second : Ambient :=
  {| Math_random_toString36 := "0.k1x9q2w7e5p"; Date_now := 1767225660000 |}.

(** The random number is exactly zero: its base-36 text is ["0"]. *)
Definition amb_zero : Ambient :=
  {| Math_random_toString36 := "0"; Date_now := 1767225600000 |}.

(** *** The rest of the page: menu, views, forms, hero animation *)

Definition setIsMenuOpen (open : bool) : Handler unit := λ b,
  (tt, {| state := {| authMode := authMode (state b);
                      showAuthModal := showAuthModal (state b);
                      appointments := appointments (state b);
                      isMenuOpen := open |};
          localStorage := localStorage b |}).

(** The mobile menu button, and a link of the open menu. *)
Definition toggleMenu : Handler unit :=
  λ b, setIsMenuOpen (negb (isMenuOpen (state b))) b.

Definition closeMenu : Handler unit := setIsMenuOpen false.

(** The footer's staff link, and the modal's close button. *)
Definition onStaffLogin : Handler unit :=
  setAuthMode none ;; setShowAuthModal true.

Definition onClose : Handler unit := setShowAuthModal false.

(** What [App] renders, as far as it depends on its state. *)
Module View.

Inductive Main :=
| Dashboard (appointments : list Appointment)
| Landing (booking : bool).

Record Screen := mkScreen {
  main : Main;
  logoutButton : bool;
  mobileMenu : bool;
  authModal : bool
}.

End View.

Definition render (s : AppState) : View.Screen :=
  {| View.main :=
       if bool_decide (authMode s = doctor)
       then View.Dashboard (appointments s)
       else View.Landing (bool_decide (authMode s = patient));
     View.logoutButton := bool_decide (authMode s ≠ none);
     View.mobileMenu := isMenuOpen s;
     View.authModal := showAuthModal s |}.

(** The table body of the dashboard: a notice when there is no
    appointment, one row per appointment otherwise. *)
Definition dashboard_shows_notice (appointments : list Appointment) : bool :=
  bool_decide (length appointments = 0%nat).

(** The link under the sign-in form that switches between "Sign In" and
    "Create Account". *)
Definition AuthModal_switchMode (m : AuthModal.State) : AuthModal.State :=
  {| AuthModal.isLogin := negb (AuthModal.isLogin m);
     AuthModal.email := AuthModal.email m;
     AuthModal.password := AuthModal.password m;
     AuthModal.error := AuthModal.error m |}.

Module BookingSection.

(** The form's state, and the delays of the time-outs the section has
    scheduled and that have not fired yet; each of them hides the success
    banner when it fires. *)
Record State := mkState {
  formData : Draft.t;
  isSuccess : bool;
  timeouts : list Z
}.

Definition blank : Draft.t :=
  {| Draft.patientName := ""; Draft.email := ""; Draft.phone := "";
     Draft.service := "Audiology"; Draft.date := "" |}.

Definition initial : State :=
  {| formData := blank; isSuccess := false; timeouts := [] |}.

Inductive Field :=
| PatientName | Email | Phone | Service | Date.

#[global] Instance Field_eq_dec : EqDecision Field.
Proof. solve_decision. Defined.

Definition get (f : Field) (d : Draft.t) : string :=
  match f with
  | PatientName => Draft.patientName d
  | Email => Draft.email d
  | Phone => Draft.phone d
  | Service => Draft.service d
  | Date => Draft.date d
  end.

(** [{...formData, field: value}] *)
Definition set (f : Field) (value : string) (d : Draft.t) : Draft.t :=
  match f with
  | PatientName =>
      {| Draft.patientName := value; Draft.email := Draft.email d;
         Draft.phone := Draft.phone d; Draft.service := Draft.service d;
         Draft.date := Draft.date d |}
  | Email =>
      {| Draft.patientName := Draft.patientName d; Draft.email := value;
         Draft.phone := Draft.phone d; Draft.service := Draft.service d;
         Draft.date := Draft.date d |}
  | Phone =>
      {| Draft.patientName := Draft.patientName d;
         Draft.email := Draft.email d; Draft.phone := value;
         Draft.service := Draft.service d; Draft.date := Draft.date d |}
  | Service =>
      {| Draft.patientName := Draft.patientName d;
         Draft.email := Draft.email d; Draft.phone := Draft.phone d;
         Draft.service := value; Draft.date := Draft.date d |}
  | Date =>
      {| Draft.patientName := Draft.patientName d;
         Draft.email := Draft.email d; Draft.phone := Draft.phone d;
         Draft.service := Draft.service d; Draft.date := value |}
  end.

(** The [onChange] handler of the input of field [f]. *)
Definition onChange (f : Field) (value : string) (s : State) : State :=
  {| formData := set f value (formData s); isSuccess := isSuccess s;
     timeouts := timeouts s |}.

(** A sequence of inputs, oldest first. *)
Definition typing (edits : list (Field * string)) (s : State) : State :=
  foldl (λ s e, onChange e.1 e.2 s) s edits.

(** The options of the service selector. *)
Definition serviceOptions : list string :=
  ["Audiology"; "Sinus & Allergy"; "Throat & Voice"].

(** The form's submit handler: books the form's content, shows the
    banner, clears the form and schedules the banner's dismissal. *)
Definition handleSubmit (onBook : Draft.t → Handler unit) (s : State)
    : Handler State := λ b,
  ({| formData := blank; isSuccess := true;
      timeouts := timeouts s ++ [5000] |},
   exec (onBook (formData s)) b).

(** The oldest scheduled time-out fires. *)
Definition timeout (s : State) : State :=
  match timeouts s with
  | [] => s
  | _ :: later =>
      {| formData := formData s; isSuccess := false; timeouts := later |}
  end.

End BookingSection.

Module HeroSection.

Definition totalFrames : Z := 160.

Definition initialFrame : Z := 1.

(** The state update of the animation, [prev => (prev % totalFrames) + 1];
    [%] is the remainder of the truncating division. *)
Definition nextFrame (prev : Z) : Z := Z.rem prev totalFrames + 1.

(** The frame after [n] updates. *)
Definition frameAfter (n : nat) : Z := Nat.iter n nextFrame initialFrame.

End HeroSection.

(** Runs of the whole page: what a visitor and the environment can do to
    the state of [App]. *)
Inductive Event :=
| Submit (m : AuthModal.State)
| Logout
| StaffLogin
| CloseModal
| ToggleMenu
| CloseMenu
| Book (amb : Ambient) (app : Draft.t)
| MarkDone (target : string).

Definition react (b : Browser) (e : Event) : Browser :=
  match e with
  | Submit m => exec (AuthModal.handleSubmit onAuth m) b
  | Logout => exec handleLogout b
  | StaffLogin => exec onStaffLogin b
  | CloseModal => exec onClose b
  | ToggleMenu => exec toggleMenu b
  | CloseMenu => exec closeMenu b
  | Book amb app => exec (addAppointment amb app) b
  | MarkDone target => exec (markDone target) b
  end.

Definition session (events : list Event) (b : Browser) : Browser :=
  foldl react b events.

(** The events the rendered page offers: the sign-in form only while the
    modal is shown, the logout button only when signed in, the booking form
    only to a patient, the done button only on a row of the dashboard. The
    booking form is also hidden while its success banner shows, a state of
    the section that is not part of [Browser]: [offered] allows a booking
    there too, so it allows every event the page offers, and a few more. *)
Definition offered (b : Browser) (e : Event) : bool :=
  match e with
  | Submit _ | CloseModal => showAuthModal (state b)
  | Logout => bool_decide (authMode (state b) ≠ none)
  | StaffLogin | ToggleMenu => true
  | CloseMenu => isMenuOpen (state b)
  | Book _ _ => bool_decide (authMode (state b) = patient)
  | MarkDone target =>
      bool_decide (authMode (state b) = doctor) &&
      bool_decide (target ∈ ids b)
  end.

Fixpoint all_offered (b : Browser) (events : list Event) : bool :=
  match events with
  | [] => true
  | e :: later => offered b e && all_offered (react b e) later
  end.

Definition is_admin_submit (e : Event) : bool :=
  match e with
  | Submit m =>
      String.eqb (AuthModal.email m) "admin" &&
      String.eqb (AuthModal.password m) "1234"
  | _ => false
  end.

(** The value the visitor typed last into field [f], if any. *)
Definition last_edit (f : BookingSection.Field)
    (edits : list (BookingSection.Field * string)) : option string :=
  snd <$> last (filter (λ e, e.1 = f) edits).

(** Opening the page over the storage of [b] shows the collection [b]
    holds, on the anonymous start screen. *)
Definition reload_shows (b : Browser) : Prop :=
  mount (localStorage b) =
  Some {| state := {| authMode := none; showAuthModal := true;
                      appointments := appointments (state b);
                      isMenuOpen := false |};
          localStorage := localStorage b |}.

(** The records the [Add]s of a run build, in the order of the run. *)
Definition booked (ops : list Op) : list Appointment :=
  omap (λ op, match op with
              | Add amb app => Some (newApp amb app)
              | Remove _ => None
              end) ops.

(** ** Part II: properties *)

Module StrFacts.

Lemma append_assoc (s t u : string) : (s +:+ t) +:+ u = s +:+ t +:+ u.
Proof. induction s as [|c s IH]; simpl; [done | by rewrite IH]. Qed.

Lemma length_append (s t : string) :
  String.length (s +:+ t) = (String.length s + String.length t)%nat.
Proof. induction s as [|c s IH]; simpl; [done | by rewrite IH]. Qed.

Lemma span_app p (s : string) (c : ascii) (rest : string) :
  Str.forallb p s = true → p c = false →
  Str.span p (s +:+ String c rest) = (s, String c rest).
Proof.
  induction s as [|a s IH]; simpl; intros Hs Hc.
  - by rewrite Hc.
  - apply andb_prop in Hs as [Ha Hs]. by rewrite Ha, IH.
Qed.

Lemma expect_app (lit rest : string) :
  Str.expect lit (lit +:+ rest) = Some rest.
Proof.
  induction lit as [|a lit IH]; simpl; [by destruct rest |].
  by rewrite Ascii.eqb_refl.
Qed.

End StrFacts.

Module JSONFacts.
Import JSON.

Lemma read_chars_quote_char (c : ascii) (s : string) :
  read_chars (quote_char c +:+ s) =
  match read_chars s with
  | Some (v, rest) => Some (String c v, rest)
  | None => None
  end.
Proof.
  destruct c as [[|] [|] [|] [|] [|] [|] [|] [|]]; reflexivity.
Qed.

Lemma read_chars_quote_body (s rest : string) :
  read_chars (quote_body s +:+ String dquote rest) = Some (s, rest).
Proof.
  induction s as [|c s IH]; [reflexivity |].
  cbn [quote_body]. by rewrite StrFacts.append_assoc, read_chars_quote_char, IH.
Qed.

Lemma read_string_quote (s rest : string) :
  read_string (quote s +:+ rest) = Some (s, rest).
Proof.
  unfold quote. cbn [String.append read_string].
  rewrite StrFacts.append_assoc. cbn [String.append].
  change (Ascii.eqb dquote dquote) with true. cbn iota.
  apply read_chars_quote_body.
Qed.

Lemma digits_are_number_chars (d : Decimal.uint) :
  Str.forallb is_number_char (NilEmpty.string_of_uint d) = true.
Proof.
  induction d as [|d IH|d IH|d IH|d IH|d IH|d IH|d IH|d IH|d IH|d IH];
    simpl; [done | exact IH ..].
Qed.

Lemma write_number_chars (z : Z) :
  Str.forallb is_number_char (write_number z) = true.
Proof.
  unfold write_number. destruct (Z.to_int z) as [d|d]; simpl;
    apply digits_are_number_chars.
Qed.

Lemma read_number_write (z : Z) (c : ascii) (rest : string) :
  is_number_char c = false →
  read_number (write_number z +:+ String c rest) = Some (z, String c rest).
Proof.
  intros Hc. unfold read_number.
  rewrite StrFacts.span_app by (done || apply write_number_chars).
  unfold write_number at 1. rewrite NilEmpty.isi, DecimalZ.of_to.
  by rewrite String.eqb_refl.
Qed.

Lemma read_status_write (st : Status) (rest : string) :
  read_status (write_status st +:+ rest) = Some (st, rest).
Proof.
  unfold read_status, write_status. rewrite read_string_quote.
  by destruct st.
Qed.

Lemma read_field_write (name v rest : string) :
  read_field name (key name +:+ quote v +:+ rest) = Some (v, rest).
Proof.
  unfold read_field. rewrite StrFacts.expect_app. cbn [mbind option_bind].
  apply read_string_quote.
Qed.

Lemma read_appointment_write (a : Appointment) (rest : string) :
  read_appointment (write_appointment a +:+ rest) = Some (a, rest).
Proof.
  unfold write_appointment, read_appointment.
  rewrite !StrFacts.append_assoc.
  repeat first
    [ rewrite StrFacts.expect_app
    | rewrite read_field_write
    | rewrite read_status_write
    | progress cbn [mbind option_bind] ].
  change ("}" +:+ rest) with (String "}" rest).
  rewrite read_number_write by reflexivity.
  by destruct a.
Qed.

Lemma write_appointment_head (a : Appointment) :
  ∃ body, write_appointment a = String "{" body.
Proof. unfold write_appointment. cbn [String.append]. eauto. Qed.

Lemma concat_cons (a : Appointment) (l : list Appointment) :
  String.concat "," (write_appointment <$> a :: l) =
  match l with
  | [] => write_appointment a
  | _ :: _ =>
      write_appointment a +:+ "," +:+ String.concat "," (write_appointment <$> l)
  end.
Proof. by destruct l. Qed.

Lemma read_items_concat (l : list Appointment) :
  ∀ (a : Appointment) (fuel : nat) (rest : string),
    (length l < fuel)%nat →
    read_items fuel
      (String.concat "," (write_appointment <$> a :: l) +:+ String "]" rest) =
    Some (a :: l, rest).
Proof.
  induction l as [|a' l IH]; intros a fuel rest Hfuel;
    (destruct fuel as [|fuel]; [simpl in Hfuel; lia |]);
    rewrite concat_cons; cbn [read_items].
  - by rewrite read_appointment_write.
  - rewrite !StrFacts.append_assoc, read_appointment_write.
    cbn [mbind option_bind String.append].
    change (Ascii.eqb "," "]") with false.
    change (Ascii.eqb "," ",") with true. cbn iota.
    rewrite IH by (simpl in Hfuel; lia). done.
Qed.

Lemma concat_length (l : list Appointment) :
  ∀ (a : Appointment) (t : string),
    (length l <
       String.length (String.concat "," (write_appointment <$> a :: l) +:+ t))%nat.
Proof.
  induction l as [|a' l IH]; intros a t; rewrite concat_cons;
    destruct (write_appointment_head a) as [body ->].
  - simpl. lia.
  - rewrite !StrFacts.append_assoc. cbn [String.append String.length].
    rewrite StrFacts.length_append. cbn [String.append String.length].
    specialize (IH a' t). simpl length. lia.
Qed.

(** Reading back what was written gives the collection that was written. *)
Lemma parse_stringify (apps : list Appointment) :
  parse (stringify apps) = Some apps.
Proof.
  destruct apps as [|a l]; [reflexivity |].
  unfold parse, stringify, read_array.
  cbn [String.append Str.expect]. change (Ascii.eqb "[" "[") with true.
  cbn iota. cbn [mbind option_bind].
  pose proof (concat_length l a "]") as Hlen.
  pose proof (read_items_concat l a _ "" Hlen) as Hread.
  rewrite concat_cons in *.
  destruct (write_appointment_head a) as [body Hbody].
  rewrite Hbody in *.
  destruct l; cbn [String.append] in *;
    change (Ascii.eqb "{" "]") with false; cbn iota;
    by rewrite Hread.
Qed.

Lemma stringify_truthy (apps : list Appointment) :
  Str.truthy (stringify apps) = true.
Proof. reflexivity. Qed.

End JSONFacts.

(** *** The store handlers *)

Section store.
Implicit Types (b : Browser) (apps : list Appointment).

Lemma saveAppointments_appointments apps b :
  appointments (state (exec (saveAppointments apps) b)) = apps.
Proof. reflexivity. Qed.

Lemma saveAppointments_snapshot apps b :
  localStorage_getItem "ent_appointments" (exec (saveAppointments apps) b)
  = Some (JSON.stringify apps).
Proof. apply lookup_insert_eq. Qed.

Lemma saveAppointments_session apps b :
  authMode (state (exec (saveAppointments apps) b)) = authMode (state b) ∧
  showAuthModal (state (exec (saveAppointments apps) b))
  = showAuthModal (state b).
Proof. done. Qed.

(** Opening the page again over what a save left in storage shows the
    saved collection. *)
Lemma mount_after_save apps b :
  mount (localStorage (exec (saveAppointments apps) b)) =
  Some {| state := {| authMode := none; showAuthModal := true;
                      appointments := apps; isMenuOpen := false |};
          localStorage := localStorage (exec (saveAppointments apps) b) |}.
Proof.
  unfold mount, loadEffect.
  change (localStorage_getItem "ent_appointments"
            {| state := App_initial;
               localStorage := localStorage (exec (saveAppointments apps) b) |})
    with (localStorage_getItem "ent_appointments"
            (exec (saveAppointments apps) b)).
  rewrite saveAppointments_snapshot, JSONFacts.stringify_truthy,
    JSONFacts.parse_stringify.
  reflexivity.
Qed.

Lemma addAppointment_appointments amb app b :
  appointments (state (exec (addAppointment amb app) b))
  = appointments (state b) ++ [newApp amb app].
Proof. reflexivity. Qed.

Lemma markDone_appointments target b :
  appointments (state (exec (markDone target) b))
  = filter (λ app, id app ≠ target) (appointments (state b)).
Proof. reflexivity. Qed.

Lemma ids_add amb app b :
  ids (exec (addAppointment amb app) b) = ids b ++ [id (newApp amb app)].
Proof. unfold ids. by rewrite addAppointment_appointments, fmap_app. Qed.

Lemma ids_markDone_sublist target b :
  ids (exec (markDone target) b) `sublist_of` ids b.
Proof.
  unfold ids. rewrite markDone_appointments.
  apply fmap_sublist, sublist_filter.
Qed.

End store.

(** *** The sign-in gate *)

(** C1. When the identifier is exactly "admin" and the secret exactly "1234",
    submitting the sign-in form succeeds with the staff role: the session
    mode becomes [doctor], the gate closes and no error is shown. *)
Theorem C1_admin_pair_is_staff (m : AuthModal.State) (b : Browser) :
  AuthModal.email m = "admin" →
  AuthModal.password m = "1234" →
  authMode (state (exec (AuthModal.handleSubmit onAuth m) b)) = doctor ∧
  showAuthModal (state (exec (AuthModal.handleSubmit onAuth m) b)) = false ∧
  AuthModal.error (returned (AuthModal.handleSubmit onAuth m) b) = "".
Proof.
  intros He Hp. unfold exec, returned, AuthModal.handleSubmit.
  cbn [AuthModal.setError AuthModal.email AuthModal.password].
  rewrite He, Hp. done.
Qed.

Lemma C1_admin_pair_is_staff_witness :
  AuthModal.email (sample_modal "admin" "1234") = "admin" ∧
  AuthModal.password (sample_modal "admin" "1234") = "1234" ∧
  authMode (state (exec
    (AuthModal.handleSubmit onAuth (sample_modal "admin" "1234"))
    empty_browser)) = doctor.
Proof.
  split; [reflexivity |]. split; [reflexivity |].
  apply (C1_admin_pair_is_staff (sample_modal "admin" "1234") empty_browser);
    reflexivity.
Defined.

Lemma truthy_nonempty (s : string) : s ≠ "" → Str.truthy s = true.
Proof. by destruct s. Qed.

Lemma truthy_false_empty (s : string) : Str.truthy s = false → s = "".
Proof. by destruct s. Qed.

Lemma admin_test_false (identifier secret : string) :
  ¬ (identifier = "admin" ∧ secret = "1234") →
  String.eqb identifier "admin" && String.eqb secret "1234" = false.
Proof.
  intros Hne. apply not_true_is_false. intros [H1 H2]%andb_prop.
  apply String.eqb_eq in H1, H2. auto.
Qed.

(** C2. When the identifier is not empty, the secret has at least four
    characters and the pair is not the admin pair, submitting the form
    succeeds with the patient role. *)
Theorem C2_other_valid_pair_is_patient (m : AuthModal.State) (b : Browser) :
  AuthModal.email m ≠ "" →
  (4 ≤ String.length (AuthModal.password m))%nat →
  ¬ (AuthModal.email m = "admin" ∧ AuthModal.password m = "1234") →
  authMode (state (exec (AuthModal.handleSubmit onAuth m) b)) = patient ∧
  showAuthModal (state (exec (AuthModal.handleSubmit onAuth m) b)) = false ∧
  AuthModal.error (returned (AuthModal.handleSubmit onAuth m) b) = "".
Proof.
  intros He Hp Hadmin. unfold exec, returned, AuthModal.handleSubmit.
  cbn [AuthModal.setError AuthModal.email AuthModal.password].
  rewrite admin_test_false by done.
  rewrite truthy_nonempty by done.
  apply Nat.leb_le in Hp. rewrite Hp. done.
Qed.

Lemma C2_other_valid_pair_is_patient_witness :
  AuthModal.email (sample_modal "jane@x.com" "hunter2") ≠ "" ∧
  (4 ≤ String.length (AuthModal.password (sample_modal "jane@x.com" "hunter2")))%nat ∧
  authMode (state (exec
    (AuthModal.handleSubmit onAuth (sample_modal "jane@x.com" "hunter2"))
    empty_browser)) = patient.
Proof.
  split; [discriminate |]. split; [simpl; lia |].
  apply (C2_other_valid_pair_is_patient
           (sample_modal "jane@x.com" "hunter2") empty_browser).
  - discriminate.
  - simpl. lia.
  - intros [H _]. discriminate H.
Defined.

(** C3. When the pair is neither the admin pair nor a pair of a non-empty
    identifier and a secret of at least four characters, submitting the form
    fails: the invalid-credentials message is shown and the browser state,
    the session mode included, is what it was. *)
Theorem C3_other_pairs_are_rejected (m : AuthModal.State) (b : Browser) :
  ¬ (AuthModal.email m = "admin" ∧ AuthModal.password m = "1234") →
  ¬ (AuthModal.email m ≠ "" ∧ (4 ≤ String.length (AuthModal.password m))%nat) →
  AuthModal.error (returned (AuthModal.handleSubmit onAuth m) b)
    = AuthModal.invalid_credentials ∧
  exec (AuthModal.handleSubmit onAuth m) b = b ∧
  authMode (state (exec (AuthModal.handleSubmit onAuth m) b))
    = authMode (state b).
Proof.
  intros Hadmin Hpatient. unfold exec, returned, AuthModal.handleSubmit.
  cbn [AuthModal.setError AuthModal.email AuthModal.password].
  rewrite admin_test_false by done.
  destruct (Str.truthy (AuthModal.email m)) eqn:He;
    destruct (4 <=? String.length (AuthModal.password m))%nat eqn:Hp;
    try done.
  exfalso. apply Hpatient. split.
  - intros Hempty. by rewrite Hempty in He.
  - by apply Nat.leb_le.
Qed.

Lemma C3_other_pairs_are_rejected_witness :
  ¬ (AuthModal.email (sample_modal "jane@x.com" "abc") ≠ "" ∧
     (4 ≤ String.length (AuthModal.password (sample_modal "jane@x.com" "abc")))%nat) ∧
  AuthModal.error (returned
    (AuthModal.handleSubmit onAuth (sample_modal "jane@x.com" "abc"))
    empty_browser) = AuthModal.invalid_credentials.
Proof.
  assert (Hshort : ¬ (AuthModal.email (sample_modal "jane@x.com" "abc") ≠ "" ∧
     (4 ≤ String.length
            (AuthModal.password (sample_modal "jane@x.com" "abc")))%nat)).
  { intros [_ H]. simpl in H. lia. }
  split; [exact Hshort |].
  apply (C3_other_pairs_are_rejected
           (sample_modal "jane@x.com" "abc") empty_browser).
  - intros [H _]. discriminate H.
  - exact Hshort.
Defined.

(** *** The appointment store *)

Lemma filter_complement_length (target : string) (apps : list Appointment) :
  (length (filter (λ a, id a ≠ target) apps)
   + length (filter (λ a, id a = target) apps) = length apps)%nat.
Proof.
  induction apps as [|a apps IH]; [done |].
  rewrite !filter_cons. destruct (decide (id a = target)) as [Heq|Hne].
  - rewrite decide_False by (by intros H; apply H).
    simpl. lia.
  - rewrite decide_True by done. simpl. lia.
Qed.

Lemma filter_absent (target : string) (apps : list Appointment) :
  target ∉ (id <$> apps) → filter (λ a, id a ≠ target) apps = apps.
Proof.
  induction apps as [|a apps IH]; [done |].
  rewrite fmap_cons, not_elem_of_cons. intros [Hne Hrest].
  rewrite filter_cons_True by done. by rewrite IH.
Qed.

(** C4 as stated fails: the id a call of [addAppointment] draws can be one a
    record of the collection already carries. Here the same random text is
    drawn by two calls in a row. *)
Lemma C4_add_can_repeat_an_id :
  ¬ (id (newApp amb_first jane)
       ∉ ids (exec (addAppointment amb_first jane) empty_browser)).
Proof. intros Hfresh. apply Hfresh. rewrite ids_add. set_solver. Qed.

(** C4, amended. For every draft and every current collection,
    [addAppointment] builds a record with the draft's fields, an id made of
    the (at most nine) characters that follow the first two of the random
    number's base-36 text, [status = pending] and [createdAt = now()]; it
    appends that record at the end of the collection and stores the text of
    the full new collection under the snapshot key, a text that reads back as
    that collection; it returns no value. The id is not compared with the ids
    of the collection. *)
Theorem C4_add_appends_and_persists
    (amb : Ambient) (app : Draft.t) (b : Browser) :
  let r := newApp amb app in
  let b' := exec (addAppointment amb app) b in
  id r = Str.substr 2 9 (Math_random_toString36 amb) ∧
  status r = pending ∧
  createdAt r = Date_now amb ∧
  (patientName r, email r, phone r, service r, date r)
    = (Draft.patientName app, Draft.email app, Draft.phone app,
       Draft.service app, Draft.date app) ∧
  appointments (state b') = appointments (state b) ++ [r] ∧
  localStorage_getItem "ent_appointments" b'
    = Some (JSON.stringify (appointments (state b'))) ∧
  JSON.parse (JSON.stringify (appointments (state b')))
    = Some (appointments (state b')) ∧
  returned (addAppointment amb app) b = tt.
Proof.
  intros r b'. repeat split.
  - apply saveAppointments_snapshot.
  - apply JSONFacts.parse_stringify.
Qed.

(** C5 as stated fails: when two records carry the id, one call of
    [markDone] takes both out, so a collection of two becomes empty, not a
    collection of one. The collection here is the one two bookings that drew
    the same random text leave. *)
Lemma C5_remove_can_drop_two :
  id (newApp amb_first jane)
    ∈ ids (run [Add amb_first jane; Add amb_first jane] empty_browser) ∧
  length (appointments (state
    (run [Add amb_first jane; Add amb_first jane] empty_browser))) = 2%nat ∧
  length (appointments (state
    (exec (markDone (id (newApp amb_first jane)))
       (run [Add amb_first jane; Add amb_first jane] empty_browser))))
  ≠ (2 - 1)%nat.
Proof.
  split; [| split].
  - unfold run. cbn [foldl step]. rewrite !ids_add. set_solver.
  - reflexivity.
  - discriminate.
Qed.

(** C5, amended. For every id and every collection, [markDone] keeps the
    records whose id differs from the given one and stores the text of the
    collection it keeps, which reads back as that collection; it returns no
    value. When exactly one record carries the id, a collection of size n
    becomes one of size n-1 in which no record carries the id and every
    other record is still present. When no record carries the id, the
    collection is left as it was. *)
Theorem C5_remove_by_id (target : string) (b : Browser) :
  let apps := appointments (state b) in
  let b' := exec (markDone target) b in
  returned (markDone target) b = tt ∧
  (target ∉ ids b') ∧
  (∀ a, a ∈ apps → id a ≠ target → a ∈ appointments (state b')) ∧
  localStorage_getItem "ent_appointments" b'
    = Some (JSON.stringify (appointments (state b'))) ∧
  JSON.parse (JSON.stringify (appointments (state b')))
    = Some (appointments (state b')) ∧
  (length (filter (λ a, id a = target) apps) = 1%nat →
   length (appointments (state b')) = (length apps - 1)%nat) ∧
  (target ∉ ids b → appointments (state b') = apps).
Proof.
  intros apps b'. subst b'. rewrite markDone_appointments. fold apps.
  split; [done |]. split; [| split; [| split; [| split; [| split]]]].
  - unfold ids. rewrite markDone_appointments. fold apps.
    intros (a & -> & [Hne _]%list_elem_of_filter)%list_elem_of_fmap. done.
  - intros a Ha Hne. by apply list_elem_of_filter.
  - apply saveAppointments_snapshot.
  - apply JSONFacts.parse_stringify.
  - intros Hone. pose proof (filter_complement_length target apps). lia.
  - apply filter_absent.
Qed.

Lemma C5_remove_by_id_witness :
  length (filter (λ a, id a = id (newApp amb_first jane))
            (appointments (state
               (run [Add amb_first jane; Add amb_second jane] empty_browser))))
    = 1%nat ∧
  length (appointments (state
    (exec (markDone (id (newApp amb_first jane)))
       (run [Add amb_first jane; Add amb_second jane] empty_browser))))
  = (2 - 1)%nat ∧
  (id (newApp amb_first jane) ∉ ids empty_browser) ∧
  appointments (state
    (exec (markDone (id (newApp amb_first jane))) empty_browser)) = [].
Proof.
  pose proof (C5_remove_by_id (id (newApp amb_first jane))
    (run [Add amb_first jane; Add amb_second jane] empty_browser))
    as (_ & _ & _ & _ & _ & Hone & _).
  pose proof (C5_remove_by_id (id (newApp amb_first jane)) empty_browser)
    as (_ & _ & _ & _ & _ & _ & Habsent).
  assert (Hcount : length (filter (λ a, id a = id (newApp amb_first jane))
            (appointments (state
               (run [Add amb_first jane; Add amb_second jane] empty_browser))))
    = 1%nat) by reflexivity.
  assert (Hout : id (newApp amb_first jane) ∉ ids empty_browser)
    by (vm_compute; apply not_elem_of_nil).
  split; [exact Hcount |]. split; [exact (Hone Hcount) |].
  split; [exact Hout |]. exact (Habsent Hout).
Defined.

(** C10. For every collection and every id, [markDone] takes out every
    record whose id is the given one, however many there are, and keeps the
    other records in the order they had: what is left is a subsequence of the
    collection, none of its records carries the id, every record with
    another id is still there, and the records taken out are as many as
    those that carried the id. *)
Theorem C10_remove_takes_every_match_keeps_order
    (target : string) (b : Browser) :
  let apps := appointments (state b) in
  let apps' := appointments (state (exec (markDone target) b)) in
  Forall (λ a, id a ≠ target) apps' ∧
  apps' `sublist_of` apps ∧
  (∀ a, a ∈ apps → id a ≠ target → a ∈ apps') ∧
  (length apps' + length (filter (λ a, id a = target) apps) = length apps)%nat.
Proof.
  intros apps apps'. subst apps'. rewrite markDone_appointments. fold apps.
  split; [| split; [| split]].
  - apply Forall_forall. by intros a [Hne _]%list_elem_of_filter.
  - apply sublist_filter.
  - intros a Ha Hne. by apply list_elem_of_filter.
  - apply filter_complement_length.
Qed.

(** *** Runs *)

Lemma step_keeps_NoDup (b : Browser) (op : Op) :
  NoDup (ids b) →
  match op with
  | Add amb app => id (newApp amb app) ∉ ids b
  | Remove _ => True
  end →
  NoDup (ids (step b op)).
Proof.
  intros Hnd Hfresh. destruct op as [amb app|target]; cbn [step].
  - rewrite ids_add. apply NoDup_app. split; [done |].
    split; [| apply NoDup_singleton].
    intros x Hx ->%list_elem_of_singleton. done.
  - eapply sublist_NoDup; [exact Hnd | apply ids_markDone_sublist].
Qed.

Lemma run_keeps_NoDup (ops : list Op) :
  ∀ b, NoDup (ids b) → fresh_draws b ops = true → NoDup (ids (run ops b)).
Proof.
  induction ops as [|op ops IH]; intros b Hnd Hfresh; [done |].
  cbn [fresh_draws] in Hfresh. apply andb_prop in Hfresh as [Hop Hrest].
  unfold run. cbn [foldl]. apply IH; [| done].
  apply step_keeps_NoDup; [done |].
  destruct op; [by apply bool_decide_eq_true in Hop | done].
Qed.

Lemma fresh_draws_prefix (pre rest : list Op) :
  ∀ b, fresh_draws b (pre ++ rest) = true → fresh_draws b pre = true.
Proof.
  induction pre as [|op pre IH]; intros b Hfresh; [done |].
  cbn [app fresh_draws] in *. apply andb_prop in Hfresh as [Hop Hrest].
  rewrite Hop. cbn. by apply IH.
Qed.

(** C6 as stated fails: two bookings that draw the same random text leave
    two records with one id. *)
Lemma C6_two_adds_can_share_an_id :
  ¬ NoDup (ids (run [Add amb_first jane; Add amb_first jane] empty_browser)).
Proof.
  unfold run. cbn [foldl step]. rewrite !ids_add.
  intros [_ [Hdisj _]]%NoDup_app.
  apply (Hdisj (id (newApp amb_first jane))); set_solver.
Qed.

(** C6, amended. For every sequence of add and remove operations that
    starts from an empty collection and in which every add draws an id that
    no record of the collection carries at that moment, no two records of the
    collection share an id, at any point of the sequence. *)
Theorem C6_ids_unique_while_draws_are_fresh
    (b : Browser) (ops pre : list Op) :
  appointments (state b) = [] →
  pre `prefix_of` ops →
  fresh_draws b ops = true →
  NoDup (ids (run pre b)).
Proof.
  intros Hempty [rest ->] Hfresh. apply run_keeps_NoDup.
  - unfold ids. rewrite Hempty. constructor.
  - by eapply fresh_draws_prefix.
Qed.

Lemma C6_ids_unique_while_draws_are_fresh_witness :
  fresh_draws empty_browser
    [Add amb_first jane; Add amb_second jane;
     Remove (id (newApp amb_first jane)); Add amb_first jane] = true ∧
  NoDup (ids (run [Add amb_first jane; Add amb_second jane] empty_browser)).
Proof.
  split; [vm_compute; reflexivity |].
  apply (C6_ids_unique_while_draws_are_fresh empty_browser
           [Add amb_first jane; Add amb_second jane;
            Remove (id (newApp amb_first jane)); Add amb_first jane]
           [Add amb_first jane; Add amb_second jane]).
  - reflexivity.
  - by exists [Remove (id (newApp amb_first jane)); Add amb_first jane].
  - vm_compute; reflexivity.
Defined.

(** *** Persistence and order *)

(** C7. Booking and then opening the page again, which reloads the stored
    snapshot, shows the collection the booking left: the former records
    followed by the new one, whose status is pending. Over a store that was
    empty the reloaded collection is exactly the new record. More generally,
    whatever collection is saved is the collection a reload shows. *)
Theorem C7_add_then_reload
    (amb : Ambient) (app : Draft.t) (b : Browser)
    (ls : gmap string string) (apps : list Appointment) :
  (appointments <$> (state <$>
     mount (localStorage (exec (addAppointment amb app) b)))
   = Some (appointments (state b) ++ [newApp amb app])) ∧
  status (newApp amb app) = pending ∧
  (appointments <$> (state <$>
     mount (localStorage (exec (addAppointment amb app)
              {| state := App_initial; localStorage := ls |})))
   = Some [newApp amb app]) ∧
  (appointments <$> (state <$>
     mount (localStorage (exec (saveAppointments apps) b)))
   = Some apps).
Proof.
  split; [| split; [| split]].
  - unfold addAppointment, exec at 1. fold (exec (saveAppointments
      (appointments (state b) ++ [newApp amb app])) b).
    by rewrite mount_after_save.
  - reflexivity.
  - unfold addAppointment, exec at 1.
    fold (exec (saveAppointments
      (appointments (state {| state := App_initial; localStorage := ls |})
         ++ [newApp amb app])) {| state := App_initial; localStorage := ls |}).
    by rewrite mount_after_save.
  - by rewrite mount_after_save.
Qed.

Lemma run_adds (b : Browser) (calls : list (Ambient * Draft.t)) :
  appointments (state (run ((λ c, Add c.1 c.2) <$> calls) b))
  = appointments (state b) ++ ((λ c, newApp c.1 c.2) <$> calls).
Proof.
  revert b. induction calls as [|[amb app] calls IH]; intros b.
  - cbn. by rewrite app_nil_r.
  - unfold run in *. cbn [fmap list_fmap foldl step fst snd].
    rewrite IH, addAppointment_appointments. by rewrite <- app_assoc.
Qed.

Lemma pendingCount_new (calls : list (Ambient * Draft.t)) :
  DoctorDashboard.pendingCount ((λ c, newApp c.1 c.2) <$> calls)
  = length calls.
Proof.
  unfold DoctorDashboard.pendingCount.
  induction calls as [|c calls IH]; [done |].
  rewrite fmap_cons, filter_cons_True by done. cbn [length]. by rewrite IH.
Qed.

(** C8. Records are kept in the order they were booked: after booking A,
    then B, then C over an empty collection, the collection is [A; B; C],
    the dashboard lists its rows in that order and counts three pending
    appointments. *)
Theorem C8_insertion_order_is_kept
    (b : Browser) (ambA ambB ambC : Ambient) (A B C : Draft.t) :
  appointments (state b) = [] →
  let b' := run [Add ambA A; Add ambB B; Add ambC C] b in
  appointments (state b')
    = [newApp ambA A; newApp ambB B; newApp ambC C] ∧
  DoctorDashboard.rowKeys (appointments (state b'))
    = [id (newApp ambA A); id (newApp ambB B); id (newApp ambC C)] ∧
  DoctorDashboard.pendingCount (appointments (state b')) = 3%nat.
Proof.
  intros Hempty b'.
  assert (Happs : appointments (state b')
                  = [newApp ambA A; newApp ambB B; newApp ambC C]).
  { pose proof (run_adds b [(ambA, A); (ambB, B); (ambC, C)]) as Hrun.
    rewrite Hempty in Hrun. exact Hrun. }
  rewrite Happs. split; [done |]. split; [done |].
  apply (pendingCount_new [(ambA, A); (ambB, B); (ambC, C)]).
Qed.

Lemma C8_insertion_order_is_kept_witness :
  appointments (state empty_browser) = [] ∧
  appointments (state
    (run [Add amb_first jane; Add amb_second jane; Add amb_zero jane]
       empty_browser))
  = [newApp amb_first jane; newApp amb_second jane; newApp amb_zero jane].
Proof.
  split; [reflexivity |].
  apply (C8_insertion_order_is_kept empty_browser
           amb_first amb_second amb_zero jane jane jane).
  reflexivity.
Defined.

(** *** The booking scenario *)

Lemma substr_nonempty (d : ascii) (ds : string) :
  Str.substr 2 9 (String "0" (String "." (String d ds))) ≠ "".
Proof. done. Qed.

(** A random number other than zero gives a non-empty id. *)
Lemma newApp_id_nonempty (amb : Ambient) (app : Draft.t) :
  random_text_wf (Math_random_toString36 amb) = true →
  Math_random_toString36 amb ≠ "0" →
  id (newApp amb app) ≠ "".
Proof.
  unfold newApp. cbn [id]. destruct (Math_random_toString36 amb) as [|c0 r];
    [done |].
  intros Hwf Hnz. cbn [random_text_wf] in Hwf.
  destruct c0 as [[|] [|] [|] [|] [|] [|] [|] [|]]; try done.
  destruct r as [|c1 r]; [done |].
  destruct c1 as [[|] [|] [|] [|] [|] [|] [|] [|]]; try done.
  destruct r as [|d ds]; [done |]. apply substr_nonempty.
Qed.

(** Whatever is drawn, the record booked over an empty collection is
    pending, is stamped with the time of the call, and marking its id done
    empties the collection. *)
Lemma booking_then_done (amb : Ambient) (app : Draft.t) (b : Browser) :
  appointments (state b) = [] →
  status (newApp amb app) = pending ∧
  createdAt (newApp amb app) = Date_now amb ∧
  appointments (state (exec (addAppointment amb app) b)) = [newApp amb app] ∧
  appointments (state
    (exec (markDone (id (newApp amb app)))
       (exec (addAppointment amb app) b))) = [].
Proof.
  intros Hempty. split; [done |]. split; [done |].
  rewrite markDone_appointments, addAppointment_appointments, Hempty.
  split; [done |]. cbn [Datatypes.app].
  by rewrite filter_cons_False by (by intros H).
Qed.

(** C9, at the input where the code departs from it: when the random
    number is exactly zero its base-36 text is "0", nothing follows the first
    two characters, and the record booked from the scenario's draft has the
    empty id. The rest of the scenario holds there: the record is pending,
    stamped with the time of the call, and marking its id done empties the
    collection. *)
Theorem C9_zero_draw_gives_empty_id :
  random_text_wf (Math_random_toString36 amb_zero) = true ∧
  appointments (state (exec (addAppointment amb_zero jane) empty_browser))
    = [newApp amb_zero jane] ∧
  id (newApp amb_zero jane) = "" ∧
  status (newApp amb_zero jane) = pending ∧
  createdAt (newApp amb_zero jane) = Date_now amb_zero ∧
  appointments (state
    (exec (markDone (id (newApp amb_zero jane)))
       (exec (addAppointment amb_zero jane) empty_browser))) = [].
Proof. repeat split. Qed.

(** ** Part III: the rest of the page *)

(** *** Session handlers and views *)

Lemma exec_saveAppointments (apps : list Appointment) (b : Browser) :
  exec (saveAppointments apps) b =
  {| state := {| authMode := authMode (state b);
                 showAuthModal := showAuthModal (state b);
                 appointments := apps;
                 isMenuOpen := isMenuOpen (state b) |};
     localStorage :=
       <["ent_appointments" := JSON.stringify apps]> (localStorage b) |}.
Proof. reflexivity. Qed.

Lemma save_save (apps1 apps2 : list Appointment) (b : Browser) :
  exec (saveAppointments apps2) (exec (saveAppointments apps1) b)
  = exec (saveAppointments apps2) b.
Proof.
  rewrite !exec_saveAppointments. cbn [state localStorage authMode
    showAuthModal isMenuOpen]. by rewrite insert_insert_eq.
Qed.

Lemma truthy_true_iff (s : string) : Str.truthy s = true ↔ s ≠ "".
Proof. by destruct s. Qed.

Lemma render_main (s : AppState) :
  View.main (render s) =
  match authMode s with
  | doctor => View.Dashboard (appointments s)
  | patient => View.Landing true
  | none => View.Landing false
  end.
Proof. unfold render. by destruct (authMode s). Qed.

Lemma submit_cases (m : AuthModal.State) (b : Browser) :
  let admin := String.eqb (AuthModal.email m) "admin" &&
               String.eqb (AuthModal.password m) "1234" in
  let valid := Str.truthy (AuthModal.email m) &&
               (4 <=? String.length (AuthModal.password m))%nat in
  exec (AuthModal.handleSubmit onAuth m) b =
  if admin then exec (onAuth doctor) b
  else if valid then exec (onAuth patient) b
  else b.
Proof.
  intros admin valid. subst admin valid.
  unfold exec at 1. unfold AuthModal.handleSubmit.
  cbn [AuthModal.setError AuthModal.email AuthModal.password].
  by repeat case_match.
Qed.

(** X1. Logging out, from the navigation bar or through the footer's staff
    link, leads to the anonymous screen whatever the state was: the landing
    page without booking form, no logout button, the sign-in modal shown.
    The collection and the storage are left as they were, and the two
    handlers do the same. *)
Theorem logout_gives_anonymous_screen (b : Browser) :
  View.main (render (state (exec handleLogout b))) = View.Landing false ∧
  View.logoutButton (render (state (exec handleLogout b))) = false ∧
  View.authModal (render (state (exec handleLogout b))) = true ∧
  appointments (state (exec handleLogout b)) = appointments (state b) ∧
  localStorage (exec handleLogout b) = localStorage b ∧
  exec onStaffLogin b = exec handleLogout b ∧
  exec handleLogout (exec handleLogout b) = exec handleLogout b.
Proof. done. Qed.

(** X2. The staff role is granted only for the admin pair: if a submission of
    the sign-in form turns a session that is not staff into a staff session,
    the identifier was "admin" and the secret "1234". *)
Theorem staff_only_by_admin_pair (m : AuthModal.State) (b : Browser) :
  authMode (state b) ≠ doctor →
  authMode (state (exec (AuthModal.handleSubmit onAuth m) b)) = doctor →
  AuthModal.email m = "admin" ∧ AuthModal.password m = "1234".
Proof.
  intros Hnot. rewrite submit_cases. cbn zeta.
  destruct (String.eqb (AuthModal.email m) "admin") eqn:He;
    destruct (String.eqb (AuthModal.password m) "1234") eqn:Hp;
    cbn [andb];
    try (by apply String.eqb_eq in He, Hp);
    by case_match.
Qed.

Lemma staff_only_by_admin_pair_witness :
  authMode (state empty_browser) ≠ doctor ∧
  AuthModal.email (sample_modal "admin" "1234") = "admin" ∧
  AuthModal.password (sample_modal "admin" "1234") = "1234".
Proof.
  split; [discriminate |].
  apply (staff_only_by_admin_pair (sample_modal "admin" "1234") empty_browser);
    [discriminate | reflexivity].
Defined.

(** X3. The submission does not look at the form's mode: in "Create Account"
    mode it does exactly what it does in "Sign In" mode, to the browser
    state and to the error message. *)
Theorem submit_ignores_the_form_mode (m : AuthModal.State) (b : Browser) :
  exec (AuthModal.handleSubmit onAuth (AuthModal_switchMode m)) b
    = exec (AuthModal.handleSubmit onAuth m) b ∧
  AuthModal.error
    (returned (AuthModal.handleSubmit onAuth (AuthModal_switchMode m)) b)
    = AuthModal.error (returned (AuthModal.handleSubmit onAuth m) b).
Proof.
  unfold exec, returned, AuthModal.handleSubmit, AuthModal_switchMode.
  cbn [AuthModal.setError AuthModal.email AuthModal.password].
  by repeat case_match.
Qed.

(** X4. Whatever is submitted, the sign-in form leaves the appointments, the
    storage and the menu as they were. *)
Theorem submit_never_touches_the_store (m : AuthModal.State) (b : Browser) :
  appointments (state (exec (AuthModal.handleSubmit onAuth m) b))
    = appointments (state b) ∧
  localStorage (exec (AuthModal.handleSubmit onAuth m) b) = localStorage b ∧
  isMenuOpen (state (exec (AuthModal.handleSubmit onAuth m) b))
    = isMenuOpen (state b).
Proof. rewrite submit_cases. cbn zeta. by repeat case_match. Qed.

(** X5. What an anonymous visitor sees after submitting the sign-in form: the
    dashboard exactly for the admin pair; the landing page with the booking
    form exactly for another pair with a non-empty identifier and a secret of
    four characters or more; and the modal stays open exactly when the pair
    is neither. *)
Theorem screen_after_submit (m : AuthModal.State) (b : Browser) :
  authMode (state b) = none →
  showAuthModal (state b) = true →
  let admin := AuthModal.email m = "admin" ∧ AuthModal.password m = "1234" in
  let valid := AuthModal.email m ≠ "" ∧
               (4 ≤ String.length (AuthModal.password m))%nat in
  let screen := render (state (exec (AuthModal.handleSubmit onAuth m) b)) in
  (View.main screen = View.Dashboard (appointments (state b)) ↔ admin) ∧
  (View.main screen = View.Landing true ↔ ¬ admin ∧ valid) ∧
  (View.main screen = View.Landing false ↔ ¬ admin ∧ ¬ valid) ∧
  (View.authModal screen = true ↔ ¬ admin ∧ ¬ valid).
Proof.
  intros Hnone Hshown admin valid screen. subst screen.
  rewrite !render_main, submit_cases. cbn zeta.
  assert (Hadmin : String.eqb (AuthModal.email m) "admin" &&
                   String.eqb (AuthModal.password m) "1234" = true ↔ admin).
  { subst admin. rewrite andb_true_iff, !String.eqb_eq. done. }
  assert (Hvalid : Str.truthy (AuthModal.email m) &&
                   (4 <=? String.length (AuthModal.password m))%nat = true
                   ↔ valid).
  { subst valid. by rewrite andb_true_iff, Nat.leb_le, truthy_true_iff. }
  destruct (String.eqb (AuthModal.email m) "admin" &&
            String.eqb (AuthModal.password m) "1234") eqn:Ha.
  { assert admin by (by apply Hadmin). cbn. intuition congruence. }
  assert (¬ admin) by (rewrite <- Hadmin; done).
  destruct (Str.truthy (AuthModal.email m) &&
            (4 <=? String.length (AuthModal.password m))%nat) eqn:Hv.
  { assert valid by (by apply Hvalid). cbn. intuition congruence. }
  assert (¬ valid) by (rewrite <- Hvalid; done).
  cbn. rewrite Hnone, Hshown. intuition congruence.
Qed.

Lemma screen_after_submit_witness :
  authMode (state empty_browser) = none ∧
  showAuthModal (state empty_browser) = true ∧
  View.main (render (state
    (exec (AuthModal.handleSubmit onAuth (sample_modal "admin" "1234"))
       empty_browser))) = View.Dashboard [].
Proof.
  split; [reflexivity |]. split; [reflexivity |].
  apply (screen_after_submit (sample_modal "admin" "1234") empty_browser);
    [reflexivity | reflexivity |].
  split; reflexivity.
Defined.

(** *** Sessions *)

Lemma react_modal_only_when_anonymous (b : Browser) (e : Event) :
  (showAuthModal (state b) = true → authMode (state b) = none) →
  showAuthModal (state (react b e)) = true →
  authMode (state (react b e)) = none.
Proof.
  intros Hinv. destruct e as [m| | | | | |amb app|target]; cbn [react];
    try done.
  rewrite submit_cases. cbn zeta. by repeat case_match.
Qed.

(** X6. The sign-in modal is shown only to an anonymous visitor: a page that
    starts that way stays that way, whatever happens to it. *)
Theorem modal_only_when_anonymous (events : list Event) (b : Browser) :
  (showAuthModal (state b) = true → authMode (state b) = none) →
  showAuthModal (state (session events b)) = true →
  authMode (state (session events b)) = none.
Proof.
  revert b. induction events as [|e events IH]; intros b Hinv; [done |].
  unfold session. cbn [foldl]. apply IH.
  by apply react_modal_only_when_anonymous.
Qed.

Lemma modal_only_when_anonymous_witness :
  (showAuthModal (state empty_browser) = true →
   authMode (state empty_browser) = none) ∧
  (showAuthModal (state (session
     [Submit (sample_modal "jane@x.com" "hunter2"); Book amb_first jane;
      StaffLogin] empty_browser)) = true →
   authMode (state (session
     [Submit (sample_modal "jane@x.com" "hunter2"); Book amb_first jane;
      StaffLogin] empty_browser)) = none).
Proof.
  split; [reflexivity |].
  apply (modal_only_when_anonymous
           [Submit (sample_modal "jane@x.com" "hunter2"); Book amb_first jane;
            StaffLogin] empty_browser).
  reflexivity.
Defined.



Lemma react_without_admin (b : Browser) (e : Event) :
  authMode (state b) ≠ doctor →
  offered b e = true →
  is_admin_submit e = false →
  authMode (state (react b e)) ≠ doctor ∧
  appointments (state b) `prefix_of` appointments (state (react b e)).
Proof.
  intros Hnot Hoff Hadmin.
  destruct e as [m| | | | | |amb app|target]; cbn [react offered] in *;
    try done.
  - cbn [is_admin_submit] in Hadmin. rewrite submit_cases. cbn zeta.
    rewrite Hadmin. by case_match.
  - split; [done |]. rewrite addAppointment_appointments.
    by apply prefix_app_r.
  - apply andb_prop in Hoff as [Hdoc _].
    by apply bool_decide_eq_true in Hdoc.
Qed.

(** X8. Without the admin pair no booking can be taken out: along any run of
    events the page offers, started outside the staff role and in which the
    admin pair is never submitted, the session never becomes staff and the
    collection only grows at its end. *)
Theorem no_removal_without_admin_pair (events : list Event) (b : Browser) :
  authMode (state b) ≠ doctor →
  all_offered b events = true →
  forallb (λ e, negb (is_admin_submit e)) events = true →
  authMode (state (session events b)) ≠ doctor ∧
  appointments (state b) `prefix_of` appointments (state (session events b)).
Proof.
  revert b. induction events as [|e events IH]; intros b Hnot Hoff Hadmin;
    [done |].
  cbn [all_offered forallb] in *.
  apply andb_prop in Hoff as [Hoff Hlater].
  apply andb_prop in Hadmin as [He Hrest]. apply negb_true_iff in He.
  destruct (react_without_admin b e Hnot Hoff He) as [Hnot' Hpre].
  unfold session. cbn [foldl].
  destruct (IH (react b e) Hnot' Hlater Hrest) as [Hfinal Hpre'].
  split; [done |]. by etrans.
Qed.

Lemma no_removal_without_admin_pair_witness :
  authMode (state empty_browser) ≠ doctor ∧
  all_offered empty_browser
    [Submit (sample_modal "jane@x.com" "hunter2"); Book amb_first jane;
     Logout; Submit (sample_modal "admin" "12345"); Book amb_second jane]
    = true ∧
  appointments (state empty_browser) `prefix_of`
  appointments (state (session
    [Submit (sample_modal "jane@x.com" "hunter2"); Book amb_first jane;
     Logout; Submit (sample_modal "admin" "12345"); Book amb_second jane]
    empty_browser)).
Proof.
  split; [discriminate |]. split; [vm_compute; reflexivity |].
  apply (no_removal_without_admin_pair
    [Submit (sample_modal "jane@x.com" "hunter2"); Book amb_first jane;
     Logout; Submit (sample_modal "admin" "12345"); Book amb_second jane]
    empty_browser).
  - discriminate.
  - vm_compute; reflexivity.
  - vm_compute; reflexivity.
Defined.

(** *** The hero animation *)

(** X9. One update of the animation moves a frame of the range 1..160 to the
    next one and the last frame to the first: the frame shown is never 0 and
    never above the frame count. *)
Theorem nextFrame_wraps (prev : Z) :
  1 ≤ prev ≤ HeroSection.totalFrames →
  HeroSection.nextFrame prev
    = (if decide (prev = HeroSection.totalFrames) then 1 else prev + 1) ∧
  1 ≤ HeroSection.nextFrame prev ≤ HeroSection.totalFrames.
Proof.
  unfold HeroSection.nextFrame, HeroSection.totalFrames. intros Hrange.
  rewrite Z.rem_mod_nonneg by lia.
  case_decide as Hlast.
  - subst prev. done.
  - rewrite Z.mod_small by lia. lia.
Qed.

Lemma nextFrame_wraps_witness :
  1 ≤ 160 ≤ HeroSection.totalFrames ∧ HeroSection.nextFrame 160 = 1.
Proof.
  split; [done |].
  destruct (nextFrame_wraps 160) as [Hnext _]; [done |]. exact Hnext.
Defined.

(** X10. After n updates from the initial frame the animation shows frame
    (n mod 160) + 1: it runs through the frames 1..160 in order and starts
    over every 160 updates. *)
Theorem frameAfter_closed_form (n : nat) :
  HeroSection.frameAfter n = Z.of_nat n mod HeroSection.totalFrames + 1.
Proof.
  unfold HeroSection.frameAfter, HeroSection.initialFrame.
  induction n as [|n IH]; [done |].
  rewrite Nat.iter_succ, IH. unfold HeroSection.nextFrame.
  pose proof (Z.mod_pos_bound (Z.of_nat n) HeroSection.totalFrames) as Hb.
  unfold HeroSection.totalFrames in *.
  rewrite Z.rem_mod_nonneg by lia.
  rewrite Nat2Z.inj_succ, <- Z.add_1_r.
  by rewrite Z.add_mod_idemp_l by lia.
Qed.

(** *** The booking form *)

Lemma typing_snoc (edits : list (BookingSection.Field * string))
    (e : BookingSection.Field * string) (s : BookingSection.State) :
  BookingSection.typing (edits ++ [e]) s
  = BookingSection.onChange e.1 e.2 (BookingSection.typing edits s).
Proof. unfold BookingSection.typing. by rewrite foldl_app. Qed.

Lemma get_set (f g : BookingSection.Field) (v : string) (d : Draft.t) :
  BookingSection.get f (BookingSection.set g v d)
  = if decide (g = f) then v else BookingSection.get f d.
Proof. by destruct f, g. Qed.

Lemma typing_get (edits : list (BookingSection.Field * string))
    (f : BookingSection.Field) (s : BookingSection.State) :
  BookingSection.get f
    (BookingSection.formData (BookingSection.typing edits s))
  = default (BookingSection.get f (BookingSection.formData s))
      (last_edit f edits).
Proof.
  induction edits as [|[g v] edits IH] using rev_ind; [done |].
  rewrite typing_snoc. cbn [BookingSection.onChange BookingSection.formData
    fst snd].
  rewrite get_set. unfold last_edit in *.
  rewrite filter_app, filter_cons, filter_nil. cbn [fst].
  case_decide as Hg.
  - by rewrite last_snoc.
  - by rewrite app_nil_r.
Qed.

Lemma typing_banner (edits : list (BookingSection.Field * string))
    (s : BookingSection.State) :
  BookingSection.isSuccess (BookingSection.typing edits s)
    = BookingSection.isSuccess s ∧
  BookingSection.timeouts (BookingSection.typing edits s)
    = BookingSection.timeouts s.
Proof.
  induction edits as [|[g v] edits IH] using rev_ind; [done |].
  by rewrite typing_snoc.
Qed.

(** X11. While the visitor types, every field of the form holds the value typed
    last into it, or what it held before when nothing was typed into it; the
    banner and the scheduled time-outs are not affected. *)
Theorem typing_last_write_wins
    (edits : list (BookingSection.Field * string))
    (f : BookingSection.Field) (s : BookingSection.State) :
  BookingSection.get f
    (BookingSection.formData (BookingSection.typing edits s))
    = default (BookingSection.get f (BookingSection.formData s))
        (last_edit f edits) ∧
  BookingSection.isSuccess (BookingSection.typing edits s)
    = BookingSection.isSuccess s ∧
  BookingSection.timeouts (BookingSection.typing edits s)
    = BookingSection.timeouts s.
Proof. split; [apply typing_get | apply typing_banner]. Qed.

(** X12. The service of the form is always one of the selector's options, as
    long as what is typed into that field is one of them. *)
Theorem service_stays_an_option
    (edits : list (BookingSection.Field * string))
    (s : BookingSection.State) :
  Draft.service (BookingSection.formData s) ∈ BookingSection.serviceOptions →
  (∀ v, (BookingSection.Service, v) ∈ edits →
        v ∈ BookingSection.serviceOptions) →
  Draft.service (BookingSection.formData (BookingSection.typing edits s))
    ∈ BookingSection.serviceOptions.
Proof.
  intros Hinit. induction edits as [|[g v] edits IH] using rev_ind;
    intros Hedits; [done |].
  rewrite typing_snoc. cbn [BookingSection.onChange BookingSection.formData
    fst snd].
  destruct g; cbn [BookingSection.set Draft.service];
    try (apply IH; intros w Hw; apply Hedits, elem_of_app; by left).
  apply Hedits, elem_of_app. right. by apply list_elem_of_singleton.
Qed.

Lemma service_stays_an_option_witness :
  Draft.service (BookingSection.formData BookingSection.initial)
    ∈ BookingSection.serviceOptions ∧
  Draft.service (BookingSection.formData (BookingSection.typing
    [(BookingSection.PatientName, "Jane Doe");
     (BookingSection.Service, "Throat & Voice")] BookingSection.initial))
    ∈ BookingSection.serviceOptions.
Proof.
  assert (Hinit : Draft.service (BookingSection.formData
            BookingSection.initial) ∈ BookingSection.serviceOptions)
    by (apply elem_of_cons; by left).
  split; [exact Hinit |].
  apply (service_stays_an_option
    [(BookingSection.PatientName, "Jane Doe");
     (BookingSection.Service, "Throat & Voice")] BookingSection.initial
    Hinit).
  intros v [Hv|Hv]%elem_of_cons; [discriminate Hv |].
  apply list_elem_of_singleton in Hv. injection Hv as ->.
  apply elem_of_cons. right. apply elem_of_cons. right.
  by apply list_elem_of_singleton.
Defined.

(** X13. Submitting the booking form of a freshly shown section, after any
    typing, appends one record to the collection. Each field of the record
    is the value typed last into it, the empty text when nothing was typed,
    "Audiology" for an untouched service. The form is cleared, the banner
    shown, the session untouched, and a reload of the page lists the
    collection with the new record. *)
Theorem submit_books_what_was_typed
    (amb : Ambient) (edits : list (BookingSection.Field * string))
    (b : Browser) :
  let s := BookingSection.typing edits BookingSection.initial in
  let submit := BookingSection.handleSubmit (addAppointment amb) s in
  let r := newApp amb (BookingSection.formData s) in
  appointments (state (exec submit b)) = appointments (state b) ++ [r] ∧
  patientName r = default "" (last_edit BookingSection.PatientName edits) ∧
  email r = default "" (last_edit BookingSection.Email edits) ∧
  phone r = default "" (last_edit BookingSection.Phone edits) ∧
  service r = default "Audiology" (last_edit BookingSection.Service edits) ∧
  date r = default "" (last_edit BookingSection.Date edits) ∧
  BookingSection.formData (returned submit b) = BookingSection.blank ∧
  BookingSection.isSuccess (returned submit b) = true ∧
  authMode (state (exec submit b)) = authMode (state b) ∧
  appointments <$> (state <$> mount (localStorage (exec submit b)))
    = Some (appointments (state b) ++ [r]).
Proof.
  intros s submit r. subst submit r s.
  pose proof (typing_get edits) as Hget.
  split; [done |].
  split; [apply (Hget BookingSection.PatientName) |].
  split; [apply (Hget BookingSection.Email) |].
  split; [apply (Hget BookingSection.Phone) |].
  split; [apply (Hget BookingSection.Service) |].
  split; [apply (Hget BookingSection.Date) |].
  split; [done |]. split; [done |]. split; [done |].
  unfold BookingSection.handleSubmit, exec at 1. cbn [snd].
  unfold addAppointment, exec at 1.
  fold (exec (saveAppointments (appointments (state b) ++
    [newApp amb (BookingSection.formData
       (BookingSection.typing edits BookingSection.initial))])) b).
  by rewrite mount_after_save.
Qed.

(** X14. Once the time-out scheduled by a submission fires, a section that had
    no other time-out pending is exactly in its initial state again: empty
    form with the default service, no banner. *)
Theorem banner_dismissed_restores_initial
    (onBook : Draft.t → Handler unit)
    (s : BookingSection.State) (b : Browser) :
  BookingSection.timeouts s = [] →
  BookingSection.isSuccess
    (returned (BookingSection.handleSubmit onBook s) b) = true ∧
  BookingSection.timeout
    (returned (BookingSection.handleSubmit onBook s) b)
  = BookingSection.initial.
Proof.
  intros Hnone. unfold returned, BookingSection.handleSubmit.
  cbn [fst]. unfold BookingSection.timeout.
  cbn [BookingSection.timeouts]. by rewrite Hnone.
Qed.

Lemma banner_dismissed_restores_initial_witness :
  BookingSection.timeouts
    (BookingSection.typing [(BookingSection.PatientName, "Jane Doe")]
       BookingSection.initial) = [] ∧
  BookingSection.timeout
    (returned (BookingSection.handleSubmit (addAppointment amb_first)
       (BookingSection.typing [(BookingSection.PatientName, "Jane Doe")]
          BookingSection.initial)) empty_browser)
  = BookingSection.initial.
Proof.
  split; [reflexivity |].
  apply (banner_dismissed_restores_initial (addAppointment amb_first)
    (BookingSection.typing [(BookingSection.PatientName, "Jane Doe")]
       BookingSection.initial) empty_browser).
  reflexivity.
Defined.

(** *** The dashboard and the store *)

Lemma react_appointments (b : Browser) (e : Event) :
  appointments (state (react b e)) =
  match e with
  | Book amb app => appointments (state b) ++ [newApp amb app]
  | MarkDone target =>
      filter (λ a, id a ≠ target) (appointments (state b))
  | _ => appointments (state b)
  end.
Proof.
  destruct e as [m| | | | | |amb app|target]; cbn [react]; try done.
  rewrite submit_cases. cbn zeta. by repeat case_match.
Qed.

Lemma react_keeps_pending (b : Browser) (e : Event) :
  Forall (λ a, status a = pending) (appointments (state b)) →
  Forall (λ a, status a = pending) (appointments (state (react b e))).
Proof.
  intros Hall. rewrite react_appointments.
  destruct e as [m| | | | | |amb app|target]; try done.
  - apply Forall_app. split; [done |]. by apply Forall_singleton.
  - eapply Forall_forall. intros a [_ Ha]%list_elem_of_filter.
    by eapply Forall_forall in Hall.
Qed.

Lemma pendingCount_all (apps : list Appointment) :
  Forall (λ a, status a = pending) apps →
  DoctorDashboard.pendingCount apps = length apps.
Proof.
  unfold DoctorDashboard.pendingCount. induction 1 as [|a apps Ha Hall IH];
    [done |].
  rewrite filter_cons_True by done. cbn [length]. by rewrite IH.
Qed.

(** X15. Every record the page holds is pending, whatever happened since a
    start in which they all were: the counter of the dashboard is the number
    of its rows, and the "no appointments" notice is shown exactly when the
    counter is zero. *)
Theorem dashboard_counts_every_row (events : list Event) (b : Browser) :
  Forall (λ a, status a = pending) (appointments (state b)) →
  let apps := appointments (state (session events b)) in
  Forall (λ a, status a = pending) apps ∧
  DoctorDashboard.pendingCount apps = length (DoctorDashboard.rowKeys apps) ∧
  (dashboard_shows_notice apps = true ↔ DoctorDashboard.pendingCount apps = 0%nat).
Proof.
  intros Hall apps.
  assert (Hfinal : Forall (λ a, status a = pending) apps).
  { subst apps. revert b Hall.
    induction events as [|e events IH]; intros b Hall; [done |].
    unfold session. cbn [foldl]. by apply IH, react_keeps_pending. }
  split; [done |]. unfold DoctorDashboard.rowKeys, dashboard_shows_notice.
  rewrite length_fmap, pendingCount_all by done.
  split; [done |]. apply bool_decide_eq_true.
Qed.

Lemma dashboard_counts_every_row_witness :
  Forall (λ a, status a = pending) (appointments (state empty_browser)) ∧
  DoctorDashboard.pendingCount (appointments (state (session
    [Book amb_first jane; Book amb_second jane;
     MarkDone (id (newApp amb_first jane))] empty_browser))) = 1%nat.
Proof.
  assert (Hall : Forall (λ a, status a = pending)
                   (appointments (state empty_browser))) by constructor.
  split; [exact Hall |].
  destruct (dashboard_counts_every_row
    [Book amb_first jane; Book amb_second jane;
     MarkDone (id (newApp amb_first jane))] empty_browser Hall)
    as (_ & Hcount & _).
  exact Hcount.
Defined.

Lemma mount_shape (ls : gmap string string) (b : Browser) :
  mount ls = Some b →
  b = {| state := {| authMode := none; showAuthModal := true;
                     appointments := appointments (state b);
                     isMenuOpen := false |};
         localStorage := ls |}.
Proof.
  unfold mount, loadEffect, localStorage_getItem. cbn [localStorage].
  destruct (ls !! "ent_appointments") as [saved|]; [| by intros [= <-]].
  destruct (Str.truthy saved); [| by intros [= <-]].
  destruct (JSON.parse saved) as [apps|]; [| done].
  by intros [= <-].
Qed.

Lemma react_keeps_reload (b : Browser) (e : Event) :
  reload_shows b → reload_shows (react b e).
Proof.
  unfold reload_shows. intros Hsync.
  destruct e as [m| | | | | |amb app|target]; cbn [react]; try done.
  - rewrite submit_cases. cbn zeta. by repeat case_match.
  - apply mount_after_save.
  - apply mount_after_save.
Qed.

(** X16. At any moment a reload shows the current bookings and nothing of the
    session: once the page has been opened over some storage, then after any
    events, opening it again over the storage they left gives the anonymous
    start screen with exactly the collection the page held. *)
Theorem reload_keeps_bookings_drops_session
    (ls : gmap string string) (b0 : Browser) (events : list Event) :
  mount ls = Some b0 →
  mount (localStorage (session events b0)) =
  Some {| state := {| authMode := none; showAuthModal := true;
                      appointments := appointments (state (session events b0));
                      isMenuOpen := false |};
          localStorage := localStorage (session events b0) |}.
Proof.
  intros Hmount. fold (reload_shows (session events b0)).
  assert (Hstart : reload_shows b0).
  { unfold reload_shows. pose proof (mount_shape ls b0 Hmount) as Hshape.
    destruct b0 as [st ls']. cbn [state localStorage] in *.
    injection Hshape as Hst ->. rewrite Hmount. do 2 f_equal. exact Hst. }
  clear Hmount. revert b0 Hstart.
  induction events as [|e events IH]; intros b0 Hstart; [done |].
  unfold session. cbn [foldl]. by apply IH, react_keeps_reload.
Qed.

Lemma reload_keeps_bookings_drops_session_witness :
  mount ∅ = Some empty_browser ∧
  appointments <$> (state <$> mount (localStorage (session
    [Submit (sample_modal "jane@x.com" "hunter2"); Book amb_first jane]
    empty_browser)))
  = Some [newApp amb_first jane].
Proof.
  split; [reflexivity |].
  rewrite (reload_keeps_bookings_drops_session ∅ empty_browser
    [Submit (sample_modal "jane@x.com" "hunter2"); Book amb_first jane]);
    reflexivity.
Defined.

Lemma filter_id_twice (target : string) (apps : list Appointment) :
  filter (λ a, id a ≠ target) (filter (λ a, id a ≠ target) apps)
  = filter (λ a, id a ≠ target) apps.
Proof.
  induction apps as [|a apps IH]; [done |].
  rewrite (filter_cons _ a). case_decide as Ha; [| done].
  by rewrite filter_cons_True, IH.
Qed.

Lemma filter_id_swap (t u : string) (apps : list Appointment) :
  filter (λ a, id a ≠ t) (filter (λ a, id a ≠ u) apps)
  = filter (λ a, id a ≠ u) (filter (λ a, id a ≠ t) apps).
Proof.
  induction apps as [|a apps IH]; [done |].
  rewrite !(filter_cons _ a).
  destruct (decide (id a ≠ u)) as [Hu|Hu]; destruct (decide (id a ≠ t)) as [Ht|Ht];
    rewrite ?(filter_cons _ a), ?decide_True, ?decide_False by done;
    by rewrite IH.
Qed.

Lemma exec_markDone (target : string) (b : Browser) :
  exec (markDone target) b
  = exec (saveAppointments
            (filter (λ a, id a ≠ target) (appointments (state b)))) b.
Proof. reflexivity. Qed.

Lemma exec_addAppointment (amb : Ambient) (app : Draft.t) (b : Browser) :
  exec (addAppointment amb app) b
  = exec (saveAppointments (appointments (state b) ++ [newApp amb app])) b.
Proof. reflexivity. Qed.

(** X17. Marking the same id done a second time changes nothing: the browser
    state, collection and stored snapshot included, is what the first call
    left. *)
Theorem markDone_idempotent (target : string) (b : Browser) :
  exec (markDone target) (exec (markDone target) b)
  = exec (markDone target) b.
Proof.
  rewrite !exec_markDone, save_save, saveAppointments_appointments.
  by rewrite filter_id_twice.
Qed.

(** X18. Marking two ids done leads to the same browser state, collection and
    stored snapshot included, in either order. *)
Theorem markDone_commutes (t u : string) (b : Browser) :
  exec (markDone t) (exec (markDone u) b)
  = exec (markDone u) (exec (markDone t) b).
Proof.
  rewrite !exec_markDone, !save_save, !saveAppointments_appointments.
  by rewrite filter_id_swap.
Qed.

(** X19. Booking and then marking an id done: when the new record drew that
    very id it is taken out with the others, as if nothing had been booked;
    otherwise the result is that of marking done first and booking after. *)
Theorem markDone_after_add
    (amb : Ambient) (app : Draft.t) (target : string) (b : Browser) :
  exec (markDone target) (exec (addAppointment amb app) b)
  = if decide (id (newApp amb app) = target)
    then exec (markDone target) b
    else exec (addAppointment amb app) (exec (markDone target) b).
Proof.
  repeat (rewrite exec_markDone || rewrite exec_addAppointment).
  rewrite !save_save, !saveAppointments_appointments.
  rewrite filter_app, filter_cons, filter_nil.
  destruct (decide (id (newApp amb app) = target)) as [Hid|Hid].
  - rewrite decide_False by (by intros H). by rewrite app_nil_r.
  - by rewrite decide_True by done.
Qed.

(** X20. The done button of a row the dashboard lists always takes something
    out: the collection is strictly smaller afterwards. *)
Theorem markDone_of_listed_row_shrinks (target : string) (b : Browser) :
  target ∈ DoctorDashboard.rowKeys (appointments (state b)) →
  (length (appointments (state (exec (markDone target) b)))
   < length (appointments (state b)))%nat.
Proof.
  unfold DoctorDashboard.rowKeys.
  intros (a & -> & Ha)%list_elem_of_fmap.
  rewrite markDone_appointments.
  apply (length_filter_lt _ _ a); [done |]. by intros H.
Qed.

Lemma markDone_of_listed_row_shrinks_witness :
  id (newApp amb_first jane)
    ∈ DoctorDashboard.rowKeys (appointments (state
        (run [Add amb_first jane; Add amb_second jane] empty_browser))) ∧
  (length (appointments (state
     (exec (markDone (id (newApp amb_first jane)))
        (run [Add amb_first jane; Add amb_second jane] empty_browser))))
   < length (appointments (state
       (run [Add amb_first jane; Add amb_second jane] empty_browser))))%nat.
Proof.
  assert (Hin : id (newApp amb_first jane)
    ∈ DoctorDashboard.rowKeys (appointments (state
        (run [Add amb_first jane; Add amb_second jane] empty_browser))))
    by (apply elem_of_cons; by left).
  split; [exact Hin |].
  exact (markDone_of_listed_row_shrinks _ _ Hin).
Defined.

(** *** Opening the page *)

(** X21. A page opened over a storage without snapshot, or with an empty one,
    starts with an empty collection on the anonymous start screen, and the
    storage is left as it was. *)
Theorem mount_without_snapshot (ls : gmap string string) :
  ls !! "ent_appointments" = None ∨ ls !! "ent_appointments" = Some "" →
  mount ls = Some {| state := App_initial; localStorage := ls |}.
Proof.
  unfold mount, loadEffect, localStorage_getItem. cbn [localStorage].
  by intros [-> | ->].
Qed.

Lemma mount_without_snapshot_witness :
  ((∅ : gmap string string) !! "ent_appointments" = None ∨
   (∅ : gmap string string) !! "ent_appointments" = Some "") ∧
  mount ∅ = Some {| state := App_initial; localStorage := ∅ |}.
Proof.
  assert (Hnone : (∅ : gmap string string) !! "ent_appointments" = None ∨
                  (∅ : gmap string string) !! "ent_appointments" = Some "")
    by (left; reflexivity).
  split; [exact Hnone |]. exact (mount_without_snapshot ∅ Hnone).
Defined.



(** *** Drawn ids *)

Lemma substring_length (s : string) :
  ∀ k n, (String.length (String.substring k n s) ≤ n)%nat.
Proof.
  induction s as [|c s IH]; intros [|k] [|n]; cbn; try lia.
  - specialize (IH 0%nat n). lia.
  - apply (IH k 0%nat).
  - apply (IH k (S n)).
Qed.

Lemma substring_forallb (p : ascii → bool) (s : string) :
  ∀ k n, Str.forallb p s = true →
         Str.forallb p (String.substring k n s) = true.
Proof.
  induction s as [|c s IH]; intros [|k] [|n]; cbn; try done.
  - intros [Hc Hs]%andb_prop. by rewrite Hc, IH.
  - intros [_ Hs]%andb_prop. by apply IH.
  - intros [_ Hs]%andb_prop. by apply IH.
Qed.

(** X23. The id a booking draws has at most nine characters. When the random
    text is the base-36 text of a number of [0, 1), the id is made of the
    digits 0-9 and a-z only, and it is not empty unless the number is
    zero. *)
Theorem drawn_id_shape (amb : Ambient) (app : Draft.t) :
  (String.length (id (newApp amb app)) ≤ 9)%nat ∧
  (random_text_wf (Math_random_toString36 amb) = true →
   Str.forallb is_base36_digit (id (newApp amb app)) = true ∧
   (Math_random_toString36 amb ≠ "0" → id (newApp amb app) ≠ "")).
Proof.
  split.
  - unfold newApp, Str.substr. cbn [id].
    apply substring_length.
  - intros Hwf. split; [| by apply newApp_id_nonempty].
    unfold newApp, Str.substr. cbn [id].
    destruct (Math_random_toString36 amb) as [|c0 r]; [done |].
    cbn [random_text_wf] in Hwf.
    destruct c0 as [[|] [|] [|] [|] [|] [|] [|] [|]]; try done.
    destruct r as [|c1 r]; [done |].
    destruct c1 as [[|] [|] [|] [|] [|] [|] [|] [|]]; try done.
    destruct r as [|d ds]; [done |].
    change (String.substring 2 9 (String "0" (String "." (String d ds))))
      with (String.substring 0 9 (String d ds)).
    by apply substring_forallb.
Qed.

Lemma drawn_id_shape_witness :
  random_text_wf (Math_random_toString36 amb_first) = true ∧
  Str.forallb is_base36_digit (id (newApp amb_first jane)) = true.
Proof.
  assert (Hwf : random_text_wf (Math_random_toString36 amb_first) = true)
    by reflexivity.
  split; [exact Hwf |].
  destruct (drawn_id_shape amb_first jane) as [_ Hshape].
  destruct (Hshape Hwf) as [Hdigits _]. exact Hdigits.
Defined.

(** *** Order over whole runs *)

(** X24. Whatever is booked and marked done, the collection lists the surviving
    records in the order they were booked: it is a subsequence of the
    records it started with followed by the records booked since, in booking
    order. *)
Theorem bookings_stay_in_booking_order (ops : list Op) (b : Browser) :
  appointments (state (run ops b))
    `sublist_of` appointments (state b) ++ booked ops.
Proof.
  revert b. induction ops as [|op ops IH]; intros b.
  - unfold booked. cbn. by rewrite app_nil_r.
  - unfold run. cbn [foldl]. etrans; [apply IH |].
    destruct op as [amb app|target]; cbn [step].
    + rewrite addAppointment_appointments. unfold booked. cbn [omap list_omap].
      by rewrite <- app_assoc.
    + rewrite markDone_appointments. unfold booked. cbn [omap list_omap].
      apply sublist_app; [apply sublist_filter | done].
Qed.
